(** * pyface: the abstract data model and the font dialog interface

    A shallow embedding of [pyface/data_view/abstract_data_model.py] and
    [pyface/i_font_dialog.py].  Both files declare classes; what they
    compute lives in the method bodies, and what they promise lives in the
    class statements themselves (which names are bound, which of them are
    abstract, which are traits).  The embedding therefore has two layers:

    - a small object model: Python values, exceptions, a state-and-error
      monad for method bodies, classes as name spaces, attribute
      resolution along the base classes, the abstract-method bookkeeping
      of [abc.ABCMeta] and late-bound calls [self.name(args)];
    - the two source modules written in that model, statement by
      statement. *)

From Stdlib Require Import ZArith Lia.
From stdpp Require Import base strings list gmap relations pretty.

Local Open Scope Z_scope.
Local Open Scope string_scope.
Local Open Scope list_scope.

#[local] Set Warnings "-register-all".

(** ** Values, exceptions, computations *)

(** The Python values the data model passes around: row and column paths
    are tuples of ints, cell values are arbitrary. *)
Inductive value : Type :=
| VNone
| VBool (b : bool)
| VInt (n : Z)
| VStr (s : string)
| VTuple (xs : list value)
| VList (xs : list value)
| VObj (cls : string) (addr : N)
| VMethod (name : string).

(** The exceptions that occur in the modelled code and in the run-time
    rules it relies on. *)
Inductive exn : Type :=
| NotImplementedError
| TypeError
| AttributeError
| ValueError
| IndexError
| TraitError
| RecursionError.

Inductive result (A : Type) : Type :=
| Ok (a : A)
| Raise (e : exn).
Arguments Ok {A} a.
Arguments Raise {A} e.

(** A method body runs against the instance's data [St]; it returns or
    raises, and whatever it wrote before raising stays written. *)
Definition M (St A : Type) : Type := St -> result A * St.

Definition ret {St A} (a : A) : M St A := fun s => (Ok a, s).
Definition raise {St A} (e : exn) : M St A := fun s => (Raise e, s).
Definition bind {St A B} (m : M St A) (k : A -> M St B) : M St B :=
  fun s => match m s with
           | (Ok a, s') => k a s'
           | (Raise e, s') => (Raise e, s')
           end.
Definition get_state {St} : M St St := fun s => (Ok s, s).
Definition put_state {St} (s : St) : M St unit := fun _ => (Ok tt, s).

Declare Scope py_scope.
Delimit Scope py_scope with py.
Notation "'let*' x ':=' m 'in' k" := (bind m (fun x => k))
  (at level 10, x name, m at level 100, k at level 200) : py_scope.
Local Open Scope py_scope.

(** ** Classes *)

(** The trait types the two modules use ([traits.api.Instance],
    [traits.api.Event], [pyface.font.PyfaceFont]). *)
Inductive trait_type : Type :=
| Instance (klass : string)
| Event
| PyfaceFont.

Section ObjectModel.
Context {St : Type}.

(** [self.name(args)]: the late-bound call a body makes on its instance. *)
Definition dispatch : Type := string -> list value -> M St value.

(** A function defined in a class body; its first parameter is [self]. *)
Definition pyfun : Type := dispatch -> list value -> M St value.

(** What a class body binds a name to.  [abstract] records the
    [@abstractmethod] decorator, which sets [__isabstractmethod__]. *)
Inductive member : Type :=
| Trait (t : trait_type)
| Method (abstract : bool) (body : pyfun).

Definition is_abstract (m : member) : bool :=
  match m with
  | Method a _ => a
  | Trait _ => false
  end.

Definition is_method (m : member) : bool :=
  match m with
  | Method _ _ => true
  | Trait _ => false
  end.

(** A class statement: its name, the names of its bases and the name
    space its body leaves behind. *)
Record pyclass : Type := Class {
  cls_name : string;
  cls_bases : list string;
  cls_namespace : gmap string member
}.

(** A class together with its ancestors, most derived first (all the
    classes here inherit along a single line).  A line is followed down
    to the class of interest; [ABCHasStrictTraits] and what lies above it
    bind none of the names dealt with here and are left off. *)
Definition mro : Type := list pyclass.

(** Attribute resolution: the first class along the line that binds the
    name. *)
Fixpoint resolve (line : mro) (name : string) : option member :=
  match line with
  | [] => None
  | c :: rest =>
      match cls_namespace c !! name with
      | Some m => Some m
      | None => resolve rest name
      end
  end.

Definition resolves_abstract (line : mro) (name : string) : bool :=
  match resolve line name with
  | Some m => is_abstract m
  | None => false
  end.

(** [ABCMeta.__new__]: a class's [__abstractmethods__] are the names its
    own body binds to something abstract, and the names abstract in a
    base that still resolve to something abstract. *)
Fixpoint abstractmethods (line : mro) : gset string :=
  match line with
  | [] => ∅
  | c :: rest =>
      dom (filter (fun nm => is_abstract nm.2 = true) (cls_namespace c))
      ∪ filter (fun n => resolves_abstract (c :: rest) n = true)
               (abstractmethods rest)
  end.

(** [object.__new__] refuses a class whose [__abstractmethods__] is not
    empty. *)
Definition instantiate (line : mro) : result unit :=
  if decide (abstractmethods line = ∅) then Ok tt else Raise TypeError.

(** Calling [obj.name(args)] on an instance of the class heading [line].
    [depth] is the interpreter's recursion limit.  A name bound to an
    event cannot be read; none of the other trait values here is
    callable. *)
Fixpoint call (depth : nat) (line : mro) (name : string)
    (args : list value) : M St value :=
  match depth with
  | O => raise RecursionError
  | S d =>
      match resolve line name with
      | Some (Method _ body) => body (call d line) args
      | Some (Trait Event) => raise AttributeError
      | Some (Trait _) => raise TypeError
      | None => raise AttributeError
      end
  end.

End ObjectModel.

Arguments dispatch St : clear implicits.
Arguments pyfun St : clear implicits.
Arguments member St : clear implicits.
Arguments pyclass St : clear implicits.
Arguments mro St : clear implicits.

(** ** [pyface/data_view/abstract_data_model.py] *)

Module AbstractDataModel.
Section Bodies.
Context {St : Type}.

(** The builtin [str]: it runs the [__str__] of its argument's class. *)
Variable py_str : value -> M St string.

(** Line 45: [def get_column_count(self, row)]. *)
Definition get_column_count : pyfun St := fun self args =>
  match args with
  | [row] => raise NotImplementedError
  | _ => raise TypeError
  end.

(** Line 64: [def can_have_children(self, row)]. *)
Definition can_have_children : pyfun St := fun self args =>
  match args with
  | [row] => raise NotImplementedError
  | _ => raise TypeError
  end.

(** Line 80: [def get_row_count(self, row)]. *)
Definition get_row_count : pyfun St := fun self args =>
  match args with
  | [row] => raise NotImplementedError
  | _ => raise TypeError
  end.

(** Line 98: [def get_value(self, row, column)]. *)
Definition get_value : pyfun St := fun self args =>
  match args with
  | [row; column] => raise NotImplementedError
  | _ => raise TypeError
  end.

(** Line 119: [def set_value(self, row, column, value)]. *)
Definition set_value : pyfun St := fun self args =>
  match args with
  | [row; column; v] => raise NotImplementedError
  | _ => raise TypeError
  end.

(** Line 144: [def get_text(self, row, column)], whose body is
    [return str(self.get_value(row, column))]. *)
Definition get_text : pyfun St := fun self args =>
  match args with
  | [row; column] =>
      let* v := self "get_value" [row; column] in
      let* s := py_str v in
      ret (VStr s)
  | _ => raise TypeError
  end.

(** Line 165: [def set_text(self, row, column, text)]. *)
Definition set_text : pyfun St := fun self args =>
  match args with
  | [row; column; text] => raise NotImplementedError
  | _ => raise TypeError
  end.

(** The class body, lines 26 to 185: four traits and seven functions,
    each of the seven under [@abstractmethod]. *)
Definition namespace : gmap string (member St) :=
  <[ "index_manager" := Trait (Instance "AbstractIndexManager") ]>
  (<[ "structure_changed" := Trait Event ]>
  (<[ "values_changed" := Trait Event ]>
  (<[ "selection" := Trait Event ]>
  (<[ "get_column_count" := Method true get_column_count ]>
  (<[ "can_have_children" := Method true can_have_children ]>
  (<[ "get_row_count" := Method true get_row_count ]>
  (<[ "get_value" := Method true get_value ]>
  (<[ "set_value" := Method true set_value ]>
  (<[ "get_text" := Method true get_text ]>
  (<[ "set_text" := Method true set_text ]> ∅)))))))))).

Definition cls : pyclass St :=
  Class "AbstractDataModel" ["ABCHasStrictTraits"] namespace.

(** The names of the seven functions of the class body. *)
Definition data_operations : list string :=
  [ "get_column_count"; "can_have_children"; "get_row_count";
    "get_value"; "set_value"; "get_text"; "set_text" ].



(** Lines 187 and 284 each hold a triple quote in the first column:
    after the class body the module has one more statement, an
    expression statement whose expression is a string literal.  The
    definitions below transcribe the functions written inside that
    literal, as they would read were the quotes taken away. *)

Definition quoted_get_checked : pyfun St := fun self args =>
  match args with
  | [row; column] => ret VNone
  | _ => raise TypeError
  end.

Definition quoted_set_checked : pyfun St := fun self args =>
  match args with
  | [row; column; checked] => ret VNone
  | _ => raise TypeError
  end.

Definition quoted_get_color : pyfun St := fun self args =>
  match args with
  | [row; column] => ret VNone
  | _ => raise TypeError
  end.

Definition quoted_get_image : pyfun St := fun self args =>
  match args with
  | [row; column] => ret VNone
  | _ => raise TypeError
  end.

Definition quoted_get_description : pyfun St := fun self args =>
  match args with
  | [row; column] => ret VNone
  | _ => raise TypeError
  end.

Definition quoted_get_enabled : pyfun St := fun self args =>
  match args with
  | [row; column] => ret (VBool true)
  | _ => raise TypeError
  end.

Definition quoted_get_editable : pyfun St := fun self args =>
  match args with
  | [row; column] => ret (VBool false)
  | _ => raise TypeError
  end.

Definition quoted_get_column_editor : pyfun St := fun self args =>
  match args with
  | [column] => ret (VStr "text")
  | _ => raise TypeError
  end.

Definition quoted_get_cell_editor : pyfun St := fun self args =>
  match args with
  | [row; column] => self "get_column_type" [column]
  | _ => raise TypeError
  end.

Definition quoted_get_can_check : pyfun St := fun self args =>
  match args with
  | [row; column] => ret (VBool false)
  | _ => raise TypeError
  end.

Definition quoted_get_can_drag : pyfun St := fun self args =>
  match args with
  | [row; column] => ret (VBool false)
  | _ => raise TypeError
  end.

Definition quoted_get_can_drop : pyfun St := fun self args =>
  match args with
  | [row; column] => ret (VBool false)
  | _ => raise TypeError
  end.

Definition quoted_get_can_select : pyfun St := fun self args =>
  match args with
  | [row; column] => ret (VBool true)
  | _ => raise TypeError
  end.

(** [def get_selection(self): pass]. *)
Definition quoted_get_selection : pyfun St := fun self args =>
  match args with
  | [] => ret VNone
  | _ => raise TypeError
  end.

(** [def set_selection(self, items, ignore_missing=False): pass]. *)
Definition quoted_set_selection : pyfun St := fun self args =>
  match args with
  | [items] => ret VNone
  | [items; ignore_missing] => ret VNone
  | _ => raise TypeError
  end.

Definition quoted : list (string * member St) :=
  [ ("get_checked", Method true quoted_get_checked);
    ("set_checked", Method true quoted_set_checked);
    ("get_color", Method true quoted_get_color);
    ("get_image", Method true quoted_get_image);
    ("get_description", Method true quoted_get_description);
    ("get_enabled", Method false quoted_get_enabled);
    ("get_editable", Method false quoted_get_editable);
    ("get_column_editor", Method true quoted_get_column_editor);
    ("get_cell_editor", Method true quoted_get_cell_editor);
    ("get_can_check", Method false quoted_get_can_check);
    ("get_can_drag", Method false quoted_get_can_drag);
    ("get_can_drop", Method false quoted_get_can_drop);
    ("get_can_select", Method false quoted_get_can_select);
    ("get_selection", Method false quoted_get_selection);
    ("set_selection", Method false quoted_set_selection) ].

(** The statements of the module that matter here, in order. *)
Inductive stmt : Type :=
| ClassDef (c : pyclass St)
| StringLiteral (text : list (string * member St)).

Definition source : list stmt := [ ClassDef cls; StringLiteral quoted ].

(** Running a module: a class statement binds its name, an expression
    statement binds nothing. *)
Definition exec_stmt (globals : gmap string (pyclass St)) (st : stmt)
    : gmap string (pyclass St) :=
  match st with
  | ClassDef c => <[ cls_name c := c ]> globals
  | StringLiteral _ => globals
  end.

Definition exec_module (body : list stmt) : gmap string (pyclass St) :=
  foldl exec_stmt ∅ body.

Definition module_globals : gmap string (pyclass St) := exec_module source.

End Bodies.
End AbstractDataModel.


(** ** [pyface/i_font_dialog.py] *)

Module IFontDialog.
Section Interface.
Context {St : Type}.

(** Lines 18 to 25: the class body is a docstring and [font = PyfaceFont()]. *)
Definition namespace : gmap string (member St) :=
  {[ "font" := Trait PyfaceFont ]}.

Definition cls : pyclass St := Class "IFontDialog" ["IDialog"] namespace.

End Interface.
End IFontDialog.

(** ** Trait attributes

    Both classes are [HasTraits] classes: the names their bodies bind to
    trait types are instance attributes that validate what is assigned to
    them.  The rules are those of the Traits package for the three trait
    types in use. *)

Section Traits.
Context {St : Type}.

(** [isinstance v klass], for the classes of the running program. *)
Variable isinstance : value -> string -> bool.

(** What [pyface.font.PyfaceFont] makes of an assigned value, and the
    font it starts with. *)
Variable font_validate : value -> result value.
Variable font_default : value.

(** [Instance(klass)] with no further argument allows [None]. *)
Definition validate (t : trait_type) (v : value) : result value :=
  match t with
  | Instance klass =>
      match v with
      | VNone => Ok VNone
      | _ => if isinstance v klass then Ok v else Raise TraitError
      end
  | Event => Ok v
  | PyfaceFont => font_validate v
  end.

(** [Instance(klass)] with no further argument has default [None]. *)
Definition default_value (t : trait_type) : value :=
  match t with
  | Instance _ => VNone
  | Event => VNone
  | PyfaceFont => font_default
  end.

(** [obj.name]: an event cannot be read; a trait never assigned reads as
    its default. *)
Definition getattr (line : mro St) (name : string)
    (store : gmap string value) : result value :=
  match resolve line name with
  | Some (Trait Event) => Raise AttributeError
  | Some (Trait t) => Ok (default (default_value t) (store !! name))
  | Some (Method _ _) => Ok (VMethod name)
  | None => Raise AttributeError
  end.

(** [obj.name = v]: an event fires and keeps nothing; a trait keeps the
    validated value; the classes are strict, so no other name can be
    assigned. *)
Definition setattr (line : mro St) (name : string) (v : value)
    (store : gmap string value) : result (gmap string value) :=
  match resolve line name with
  | Some (Trait Event) => Ok store
  | Some (Trait t) =>
      match validate t v with
      | Ok v' => Ok (<[ name := v' ]> store)
      | Raise e => Raise e
      end
  | Some (Method _ _) => Raise TraitError
  | None => Raise TraitError
  end.

(** [HasTraits.__init__] assigns its keyword arguments in turn. *)
Fixpoint init_traits (line : mro St) (kwargs : list (string * value))
    (store : gmap string value) : result (gmap string value) :=
  match kwargs with
  | [] => Ok store
  | (name, v) :: rest =>
      match setattr line name v store with
      | Ok store' => init_traits line rest store'
      | Raise e => Raise e
      end
  end.

(** Calling the class with keyword arguments. *)
Definition construct (line : mro St) (kwargs : list (string * value))
    : result (gmap string value) :=
  match instantiate line with
  | Ok _ => init_traits line kwargs ∅
  | Raise e => Raise e
  end.

(** The trait stores an instance can get into: the one it is built with,
    and then one assignment after another. *)
Inductive reachable (line : mro St) : gmap string value -> Prop :=
| reachable_new kwargs store :
    construct line kwargs = Ok store -> reachable line store
| reachable_set store name v store' :
    reachable line store ->
    setattr line name v store = Ok store' ->
    reachable line store'.

(** What a store may keep under a name declared [Instance(klass)]. *)
Definition holds_instance (klass name : string)
    (store : gmap string value) : Prop :=
  match store !! name with
  | None => True
  | Some v => v = VNone \/ isinstance v klass = true
  end.

End Traits.

(** ** Paths *)

(** A row or column path as the Python value the methods receive. *)
Definition path_value (p : list Z) : value := VTuple (VInt <$> p).

Definition root : list Z := [].

Definition as_int (v : value) : option Z :=
  match v with
  | VInt n => Some n
  | _ => None
  end.

(** The path a sequence of ints denotes. *)
Definition as_path (v : value) : option (list Z) :=
  match v with
  | VTuple xs | VList xs => mapM as_int xs
  | _ => None
  end.

Definition lift_result {St A} (r : result A) : M St A := fun s => (r, s).

Definition lift_option {St A} (e : exn) (o : option A) : M St A :=
  match o with
  | Some a => ret a
  | None => raise e
  end.

(** ** What the docstrings promise about the structure of a model *)

Section DocumentedContract.
Context {St : Type}.

(** The model: its class line and the recursion limit it runs under. *)
Variable line : mro St.
Variable depth : nat.

(** The data behind the model: how it may change from one moment to a
    later one, and how many child rows a row has in it ([None] where the
    path names no row). *)
Variable evolves : St -> St -> Prop.
Variable child_rows : St -> list Z -> option nat.

Definition returns (name : string) (args : list value) (s : St)
    (v : value) : Prop :=
  (call depth line name args s).1 = Ok v.

(** [get_row_count]: "How many child rows the row currently has." *)
Definition get_row_count_doc : Prop :=
  forall s row n,
    child_rows s row = Some n ->
    returns "get_row_count" [path_value row] s (VInt (Z.of_nat n)).

(** [can_have_children]: "Whether or not the row can ever have child
    rows." *)
Definition can_ever_have_children (s : St) (row : list Z) : Prop :=
  exists s' k, rtc evolves s s' /\ child_rows s' row = Some (S k).

Definition can_have_children_doc : Prop :=
  forall s row,
    is_Some (child_rows s row) ->
    exists b : bool,
      returns "can_have_children" [path_value row] s (VBool b)
      /\ (b = true <-> can_ever_have_children s row).

Definition conforming : Prop :=
  get_row_count_doc /\ can_have_children_doc.

(** The values behind the model: the value a row and a column stand for
    ([None] where the paths name no cell), and what the adapter counts as
    a kept value agreeing with a written one. *)
Variable cell : St -> list Z -> list Z -> option value.
Variable consistent : value -> value -> Prop.

(** [get_value]: "Return the Python value for the row and column." *)
Definition get_value_doc : Prop :=
  forall s row column w,
    cell s row column = Some w ->
    returns "get_value" [path_value row; path_value column] s w.

(** [set_value]: "Set the Python value for the row and column", returning
    "whether or not the value was set successfully". *)
Definition set_value_doc : Prop :=
  forall s row column v s',
    call depth line "set_value"
         [path_value row; path_value column; v] s = (Ok (VBool true), s') ->
    exists w, cell s' row column = Some w /\ consistent w v.

Definition value_conforming : Prop :=
  get_value_doc /\ set_value_doc.

(** [get_column_count]: "The total number of columns in the table is
    given by the column count of the Root row." *)
Definition total_column_count (s : St) : result value :=
  (call depth line "get_column_count" [path_value root] s).1.

End DocumentedContract.

(** ** A table-backed model

    The package's concrete models live in other modules than the two
    embedded here; the one below follows the specification's example of a
    model backed by a flat table. *)

(** The data behind the model: header cells and rows of cells. *)
Record table : Type := Table {
  headers : list value;
  rows : list (list value)
}.

(** Modelled from the spec: a concrete model backed by a flat table, whose
    root has the table's rows as children and the table's column count,
    whose rows are leaves, whose reads and writes on paths out of range
    raise, and whose writes report success by returning true. *)
Module TableModel.
Section Bodies.

Variable py_str : value -> M table string.

(** Where a row path leads: [None] for the root, [Some i] for row [i]. *)
Definition locate (t : table) (row : list Z) : result (option nat) :=
  match row with
  | [] => Ok None
  | [i] =>
      if decide (0 <= i < Z.of_nat (length (rows t)))
      then Ok (Some (Z.to_nat i))
      else Raise IndexError
  | _ => Raise IndexError
  end.

(** The cells a located row holds. *)
Definition cells (t : table) (loc : option nat) : list value :=
  match loc with
  | None => headers t
  | Some i => default [] (rows t !! i)
  end.

Definition column_index (width : nat) (column : list Z) : result nat :=
  match column with
  | [j] =>
      if decide (0 <= j < Z.of_nat width)
      then Ok (Z.to_nat j)
      else Raise IndexError
  | _ => Raise IndexError
  end.

Definition write (t : table) (loc : option nat) (j : nat) (v : value)
    : table :=
  match loc with
  | None => Table (<[ j := v ]> (headers t)) (rows t)
  | Some i =>
      Table (headers t) (<[ i := <[ j := v ]> (cells t loc) ]> (rows t))
  end.

Definition get_column_count : pyfun table := fun self args =>
  match args with
  | [row] =>
      let* p := lift_option TypeError (as_path row) in
      let* t := get_state in
      let* loc := lift_result (locate t p) in
      ret (VInt (Z.of_nat (length (cells t loc))))
  | _ => raise TypeError
  end.

Definition can_have_children : pyfun table := fun self args =>
  match args with
  | [row] =>
      let* p := lift_option TypeError (as_path row) in
      let* t := get_state in
      let* loc := lift_result (locate t p) in
      ret (VBool (match loc with None => true | Some _ => false end))
  | _ => raise TypeError
  end.

Definition get_row_count : pyfun table := fun self args =>
  match args with
  | [row] =>
      let* p := lift_option TypeError (as_path row) in
      let* t := get_state in
      let* loc := lift_result (locate t p) in
      ret (VInt (match loc with
                 | None => Z.of_nat (length (rows t))
                 | Some _ => 0
                 end))
  | _ => raise TypeError
  end.

Definition get_value : pyfun table := fun self args =>
  match args with
  | [row; column] =>
      let* p := lift_option TypeError (as_path row) in
      let* c := lift_option TypeError (as_path column) in
      let* t := get_state in
      let* loc := lift_result (locate t p) in
      let* j := lift_result (column_index (length (cells t loc)) c) in
      lift_option IndexError (cells t loc !! j)
  | _ => raise TypeError
  end.

Definition set_value : pyfun table := fun self args =>
  match args with
  | [row; column; v] =>
      let* p := lift_option TypeError (as_path row) in
      let* c := lift_option TypeError (as_path column) in
      let* t := get_state in
      let* loc := lift_result (locate t p) in
      let* j := lift_result (column_index (length (cells t loc)) c) in
      let* _ := put_state (write t loc j v) in
      ret (VBool true)
  | _ => raise TypeError
  end.

(** [return super().get_text(row, column)]. *)
Definition get_text : pyfun table := AbstractDataModel.get_text py_str.

Definition set_text : pyfun table := fun self args =>
  match args with
  | [row; column; text] => self "set_value" [row; column; text]
  | _ => raise TypeError
  end.

Definition namespace : gmap string (member table) :=
  <[ "get_column_count" := Method false get_column_count ]>
  (<[ "can_have_children" := Method false can_have_children ]>
  (<[ "get_row_count" := Method false get_row_count ]>
  (<[ "get_value" := Method false get_value ]>
  (<[ "set_value" := Method false set_value ]>
  (<[ "get_text" := Method false get_text ]>
  (<[ "set_text" := Method false set_text ]> ∅)))))).

Definition cls : pyclass table :=
  Class "TableModel" ["AbstractDataModel"] namespace.

Definition line : mro table := [cls; AbstractDataModel.cls py_str].

(** The table may be replaced by any other as time goes by. *)
Definition evolves (t t' : table) : Prop := True.

(** The root has the table's rows as its child rows; a row of the
    table has none. *)
Definition child_rows (t : table) (row : list Z) : option nat :=
  match locate t row with
  | Ok None => Some (length (rows t))
  | Ok (Some _) => Some O
  | Raise _ => None
  end.

(** The value a row and a column of the table stand for. *)
Definition cell (t : table) (row column : list Z) : option value :=
  match locate t row with
  | Ok loc =>
      match column_index (length (cells t loc)) column with
      | Ok j => cells t loc !! j
      | Raise _ => None
      end
  | Raise _ => None
  end.

End Bodies.
End TableModel.

(** ** Sample data *)

(** The builtin [str] on [None], bools, ints and strings; the samples put
    nothing else into cells. *)
Definition scalar_str {St} (v : value) : M St string :=
  match v with
  | VNone => ret "None"
  | VBool true => ret "True"
  | VBool false => ret "False"
  | VInt n => ret (pretty n)
  | VStr s => ret s
  | _ => raise TypeError
  end.

(** Three rows, two columns. *)
Definition flat_table : table :=
  Table [VStr "name"; VStr "age"]
        [ [VStr "ann"; VInt 30]; [VStr "bob"; VInt 25]; [VStr "cy"; VInt 41] ].

(** A table whose first row holds one cell only. *)
Definition ragged_table : table :=
  Table [VStr "name"; VStr "age"]
        [ [VStr "ann"]; [VStr "bob"; VInt 25] ].

(** A subclass of the data model that so far overrides [get_value] alone. *)
Module Sketch.
Definition get_value : pyfun unit := fun self args =>
  match args with
  | [row; column] => ret (VInt 7)
  | _ => raise TypeError
  end.

Definition cls : pyclass unit :=
  Class "Sketch" ["AbstractDataModel"]
        {[ "get_value" := Method false get_value ]}.
End Sketch.

(** An index manager class and an instance of it, for the samples. *)
Definition sample_isinstance (v : value) (klass : string) : bool :=
  match v with
  | VObj c _ =>
      bool_decide (c = klass)
      || (bool_decide (c = "IntIndexManager")
          && bool_decide (klass = "AbstractIndexManager"))
  | _ => false
  end.

(** A stand-in for the base dialog interface of [pyface.i_dialog]: a
    title and one operation, [open]. *)
Module SampleDialog.
Definition open : pyfun unit := fun self args =>
  match args with
  | [] => ret (VInt 10)
  | _ => raise TypeError
  end.

Definition cls : pyclass unit :=
  Class "IDialog" ["IWindow"]
        (<[ "title" := Trait (Instance "str") ]>
         {[ "open" := Method false open ]}).
End SampleDialog.

(** A font trait that takes font objects as they are and nothing else. *)
Definition sample_font_validate (v : value) : result value :=
  match v with
  | VObj "Font" _ => Ok v
  | _ => Raise TraitError
  end.

Definition sample_font_default : value := VObj "Font" 0.

(** A subclass of the data model that so far overrides
    [can_have_children] alone. *)
Module Outline.
Definition can_have_children : pyfun unit := fun self args =>
  match args with
  | [row] => ret (VBool true)
  | _ => raise TypeError
  end.

Definition cls : pyclass unit :=
  Class "Outline" ["AbstractDataModel"]
        {[ "can_have_children" := Method false can_have_children ]}.
End Outline.

(** * Properties *)

(** ** The object model *)

Section ObjectModelFacts.
Context {St : Type}.
Implicit Types (line : mro St) (c : pyclass St) (name : string).

Lemma resolve_app line1 line2 name :
  resolve (line1 ++ line2) name =
    match resolve line1 name with
    | Some m => Some m
    | None => resolve line2 name
    end.
Proof.
  induction line1 as [|c rest IH]; simpl; [done|].
  destruct (cls_namespace c !! name); [done|apply IH].
Qed.

Lemma resolve_unbound line1 line2 name :
  Forall (fun c => cls_namespace c !! name = None) line1 ->
  resolve (line1 ++ line2) name = resolve line2 name.
Proof.
  induction 1 as [|c rest Hc _ IH]; simpl; [done|].
  by rewrite Hc.
Qed.

(** A name is in [__abstractmethods__] exactly when it resolves to
    something abstract. *)
Lemma elem_of_abstractmethods line name :
  name ∈ abstractmethods line <-> resolves_abstract line name = true.
Proof.
  induction line as [|c rest IH]; simpl.
  - unfold resolves_abstract; simpl. split; [set_solver|done].
  - rewrite elem_of_union, elem_of_dom, elem_of_filter, IH.
    unfold resolves_abstract at 2 3; simpl.
    split.
    + intros [[m Hm]|[H _]]; [|done].
      apply map_lookup_filter_Some in Hm as [Hm Ha]; simpl in Ha.
      by rewrite Hm.
    + destruct (cls_namespace c !! name) as [m|] eqn:Hm.
      * intros Ha. left. exists m.
        by apply map_lookup_filter_Some.
      * intros Ha. right. split; [|done].
        unfold resolves_abstract; simpl. by rewrite Hm.
Qed.

Lemma instantiate_Ok line :
  instantiate line = Ok tt <->
  forall name, resolves_abstract line name = false.
Proof.
  unfold instantiate. destruct (decide _) as [He|Hne]; split; try done.
  - intros _ name. destruct (resolves_abstract line name) eqn:Hr; [|done].
    apply elem_of_abstractmethods in Hr. rewrite He in Hr. set_solver.
  - intros Hall. exfalso. apply Hne. apply set_eq; intros name.
    rewrite elem_of_abstractmethods, Hall. set_solver.
Qed.

Lemma call_unbound depth line name args s :
  resolve line name = None ->
  call (S depth) line name args s = (Raise AttributeError, s).
Proof. intros H; simpl. by rewrite H. Qed.

Lemma call_method depth line name a body args s :
  resolve line name = Some (Method a body) ->
  call (S depth) line name args s = body (call depth line) args s.
Proof. intros H; simpl. by rewrite H. Qed.

End ObjectModelFacts.

(** ** The abstract data model *)

Section AbstractDataModelFacts.
Context {St : Type}.
Variable py_str : value -> M St string.

Local Abbreviation base := (AbstractDataModel.cls py_str).

Lemma data_operations_abstract name :
  name ∈ AbstractDataModel.data_operations ->
  exists body,
    AbstractDataModel.namespace py_str !! name = Some (Method true body).
Proof.
  unfold AbstractDataModel.data_operations.
  rewrite !elem_of_cons, elem_of_nil.
  intros [->|[->|[->|[->|[->|[->|[->|[]]]]]]]]; eexists; reflexivity.
Qed.

Lemma abstractmethods_base :
  abstractmethods [base] = list_to_set AbstractDataModel.data_operations.
Proof. vm_compute. reflexivity. Qed.

Lemma instantiate_base : instantiate [base] = Raise TypeError.
Proof. vm_compute. reflexivity. Qed.

(** A class below the data model can be instantiated only if one of the
    classes below the data model binds each of the seven names to
    something that is not abstract. *)
Lemma instantiate_overrides (subs : mro St) name :
  instantiate (subs ++ [base]) = Ok tt ->
  name ∈ AbstractDataModel.data_operations ->
  exists m, resolve subs name = Some m /\ is_abstract m = false.
Proof.
  intros Hinst Hname.
  apply instantiate_Ok with (name := name) in Hinst.
  unfold resolves_abstract in Hinst. rewrite resolve_app in Hinst.
  destruct (resolve subs name) as [m|]; [by exists m|].
  destruct (data_operations_abstract name Hname) as [body Hbody].
  simpl in Hinst. unfold base in Hinst; simpl in Hinst.
  by rewrite Hbody in Hinst.
Qed.

End AbstractDataModelFacts.

(** C9: the seven data operations of the data model class, [get_text] with
    its default body among them, are abstract; they are the class's
    abstract methods, so the class itself cannot be instantiated, and a
    class derived from it can be instantiated only once every one of the
    seven names, [get_text] included, has been overridden by something that
    is not abstract. *)
Theorem data_operations_all_abstract
    (St : Type) (py_str : value -> M St string) :
  (forall name, name ∈ AbstractDataModel.data_operations ->
     exists body,
       AbstractDataModel.namespace py_str !! name = Some (Method true body))
  /\ AbstractDataModel.namespace py_str !! "get_text"
      = Some (Method true (AbstractDataModel.get_text py_str))
  /\ abstractmethods [AbstractDataModel.cls py_str]
      = list_to_set AbstractDataModel.data_operations
  /\ instantiate [AbstractDataModel.cls py_str] = Raise TypeError
  /\ (forall (subs : mro St) name,
        instantiate (subs ++ [AbstractDataModel.cls py_str]) = Ok tt ->
        name ∈ AbstractDataModel.data_operations ->
        exists m, resolve subs name = Some m /\ is_abstract m = false).
Proof.
  split; [apply data_operations_abstract|].
  split; [reflexivity|].
  split; [apply abstractmethods_base|].
  split; [apply instantiate_base|].
  intros subs name. apply instantiate_overrides.
Qed.

Lemma data_operations_all_abstract_witness :
  instantiate ([TableModel.cls scalar_str]
               ++ [AbstractDataModel.cls scalar_str]) = Ok tt
  /\ "get_text" ∈ AbstractDataModel.data_operations
  /\ exists m,
       resolve [TableModel.cls scalar_str] "get_text" = Some m
       /\ is_abstract m = false.
Proof.
  assert (Hi : instantiate ([TableModel.cls scalar_str]
                 ++ [AbstractDataModel.cls scalar_str]) = Ok tt)
    by (vm_compute; reflexivity).
  assert (Hn : "get_text" ∈ AbstractDataModel.data_operations)
    by (do 5 apply list_elem_of_further; apply list_elem_of_here).
  split; [exact Hi|]. split; [exact Hn|].
  exact (proj2 (proj2 (proj2 (proj2
           (data_operations_all_abstract table scalar_str))))
           [TableModel.cls scalar_str] "get_text" Hi Hn).
Defined.

(** C3: the default [get_text] returns the string conversion of what
    [get_value] returns for the same row and column: in every class
    derived from the data model that leaves [get_text] as it is, calling
    [get_text(row, column)] calls the instance's [get_value(row, column)],
    hands the result to [str] and returns that string; an exception of
    either step is passed on. *)
Theorem default_get_text_is_str_of_get_value
    (St : Type) (py_str : value -> M St string)
    (subs : mro St) (depth : nat) (row column : value) (s : St) :
  Forall (fun c => cls_namespace c !! "get_text" = None) subs ->
  call (S depth) (subs ++ [AbstractDataModel.cls py_str]) "get_text"
       [row; column] s
  = match call depth (subs ++ [AbstractDataModel.cls py_str]) "get_value"
            [row; column] s with
    | (Ok v, s1) =>
        match py_str v s1 with
        | (Ok text, s2) => (Ok (VStr text), s2)
        | (Raise e, s2) => (Raise e, s2)
        end
    | (Raise e, s1) => (Raise e, s1)
    end.
Proof.
  intros Hsubs.
  erewrite call_method; last first.
  { rewrite resolve_unbound by done. reflexivity. }
  unfold AbstractDataModel.get_text, bind, ret.
  destruct (call depth _ "get_value" [row; column] s) as [[v|e] s1]; [|done].
  by destruct (py_str v s1) as [[text|e] s2].
Qed.

Lemma default_get_text_is_str_of_get_value_witness :
  Forall (fun c : pyclass unit => cls_namespace c !! "get_text" = None)
         [Sketch.cls]
  /\ call 2 ([Sketch.cls] ++ [AbstractDataModel.cls scalar_str]) "get_text"
          [path_value [1]; path_value [0]] tt
     = (Ok (VStr "7"), tt).
Proof.
  assert (H : Forall (fun c : pyclass unit =>
                        cls_namespace c !! "get_text" = None) [Sketch.cls])
    by (repeat constructor).
  split; [exact H|].
  rewrite (default_get_text_is_str_of_get_value unit scalar_str
             [Sketch.cls] 1 (path_value [1]) (path_value [0]) tt H).
  vm_compute. reflexivity.
Defined.



(** ** The functions inside the string literal *)

Section QuotedFacts.
Context {St : Type}.
Variable py_str : value -> M St string.

Lemma module_binds_class :
  AbstractDataModel.module_globals py_str !! "AbstractDataModel"
  = Some (AbstractDataModel.cls py_str).
Proof. reflexivity. Qed.

(** A name the data model's class body does not bind, and no class
    below it either, is no attribute of the instance. *)
Lemma call_outside_class (subs : mro St) depth name args s :
  AbstractDataModel.namespace py_str !! name = None ->
  Forall (fun c => cls_namespace c !! name = None) subs ->
  call (S depth) (subs ++ [AbstractDataModel.cls py_str]) name args s
  = (Raise AttributeError, s).
Proof.
  intros Hbase Hsubs. apply call_unbound.
  rewrite resolve_unbound by done. simpl. by rewrite Hbase.
Qed.

End QuotedFacts.

(** C1, as the code has it: the six capability predicates are not
    attributes of the data model class.  The module binds the class to its
    body of four traits and seven abstract functions; none of the six names
    is in that body, so calling one on an instance of a class that does not
    define it itself raises [AttributeError].  The six functions are
    written inside the string literal that follows the class; as written
    there, none is abstract and each returns one fixed boolean for every
    row and column: [True] for [get_enabled] and [get_can_select], [False]
    for the other four. *)
Theorem capability_predicates_are_quoted
    (St : Type) (py_str : value -> M St string) :
  AbstractDataModel.module_globals py_str !! "AbstractDataModel"
  = Some (AbstractDataModel.cls py_str)
  /\ Forall
       (fun nb : string * bool =>
          AbstractDataModel.namespace py_str !! nb.1 = None
          /\ (forall (subs : mro St) depth args s,
                Forall (fun c => cls_namespace c !! nb.1 = None) subs ->
                call (S depth) (subs ++ [AbstractDataModel.cls py_str])
                     nb.1 args s
                = (Raise AttributeError, s))
          /\ exists body : pyfun St,
               (nb.1, Method false body) ∈ AbstractDataModel.quoted
               /\ forall self row column s,
                    body self [row; column] s = (Ok (VBool nb.2), s))
       [ ("get_enabled", true); ("get_editable", false);
         ("get_can_check", false); ("get_can_drag", false);
         ("get_can_drop", false); ("get_can_select", true) ].
Proof.
  split; [apply module_binds_class|].
  repeat (apply List.Forall_cons; [|]); try apply List.Forall_nil; simpl;
    (split; [reflexivity|];
     split; [intros; by apply call_outside_class|];
     eexists; split;
       [repeat first [apply list_elem_of_here | apply list_elem_of_further]
       |reflexivity]).
Qed.

Lemma capability_predicates_are_quoted_witness :
  Forall (fun c : pyclass table => cls_namespace c !! "get_enabled" = None)
         [TableModel.cls scalar_str]
  /\ call 10 ([TableModel.cls scalar_str]
              ++ [AbstractDataModel.cls scalar_str]) "get_enabled"
          [path_value [0]; path_value [0]] flat_table
     = (Raise AttributeError, flat_table).
Proof.
  assert (H : Forall (fun c : pyclass table =>
                        cls_namespace c !! "get_enabled" = None)
                     [TableModel.cls scalar_str])
    by (repeat constructor).
  split; [exact H|].
  destruct (capability_predicates_are_quoted table scalar_str) as [_ HF].
  apply Forall_inv in HF. destruct HF as (_ & Hcall & _).
  exact (Hcall [TableModel.cls scalar_str] 9%nat _ flat_table H).
Defined.

(** C1 fails as stated: on an instance of a concrete model the call
    [get_enabled(row, column)] does not return [True]; the name is not
    bound and the call raises [AttributeError]. *)
Lemma get_enabled_is_no_attribute :
  resolve (TableModel.line scalar_str) "get_enabled" = None
  /\ (call 10 (TableModel.line scalar_str) "get_enabled"
           [path_value [0]; path_value [0]] flat_table).1
     = Raise AttributeError.
Proof. split; vm_compute; reflexivity. Qed.

(** C2, as the code has it: [set_selection] is not an attribute of the
    data model class; calling it on an instance of a class that does not
    define it itself raises [AttributeError], whatever the items and
    whatever [ignore_missing].  The function of that name is written
    inside the string literal that follows the class, with [pass] for a
    body: as written there it returns [None] for all items and either
    flag, raises nothing and leaves the instance as it was. *)
Theorem set_selection_is_quoted
    (St : Type) (py_str : value -> M St string) :
  AbstractDataModel.namespace py_str !! "set_selection" = None
  /\ (forall (subs : mro St) depth args s,
        Forall (fun c => cls_namespace c !! "set_selection" = None) subs ->
        call (S depth) (subs ++ [AbstractDataModel.cls py_str])
             "set_selection" args s
        = (Raise AttributeError, s))
  /\ ("set_selection",
      Method false AbstractDataModel.quoted_set_selection)
     ∈ AbstractDataModel.quoted (St := St)
  /\ (forall (self : dispatch St) items s,
        AbstractDataModel.quoted_set_selection self [items] s
        = (Ok VNone, s))
  /\ (forall (self : dispatch St) items ignore_missing s,
        AbstractDataModel.quoted_set_selection self [items; ignore_missing] s
        = (Ok VNone, s)).
Proof.
  split; [reflexivity|].
  split; [intros; by apply call_outside_class|].
  split; [|split; reflexivity].
  repeat first [apply list_elem_of_here | apply list_elem_of_further].
Qed.

Lemma set_selection_is_quoted_witness :
  Forall (fun c : pyclass table => cls_namespace c !! "set_selection" = None)
         [TableModel.cls scalar_str]
  /\ call 10 ([TableModel.cls scalar_str]
              ++ [AbstractDataModel.cls scalar_str]) "set_selection"
          [VList [path_value [0]; path_value [7]]; VBool false] flat_table
     = (Raise AttributeError, flat_table).
Proof.
  assert (H : Forall (fun c : pyclass table =>
                        cls_namespace c !! "set_selection" = None)
                     [TableModel.cls scalar_str])
    by (repeat constructor).
  split; [exact H|].
  exact (proj1 (proj2 (set_selection_is_quoted table scalar_str))
           [TableModel.cls scalar_str] 9%nat _ flat_table H).
Defined.

(** C2 fails as stated: with [ignore_missing=True] and an item that is not
    there to select, the call does not succeed; it raises
    [AttributeError], as it does with [ignore_missing=False]. *)
Lemma set_selection_does_not_succeed :
  (call 10 (TableModel.line scalar_str) "set_selection"
        [VList [path_value [0]; path_value [7]]; VBool true] flat_table).1
  = Raise AttributeError
  /\ (call 10 (TableModel.line scalar_str) "set_selection"
           [VList [path_value [0]; path_value [7]]; VBool false]
           flat_table).1
     = Raise AttributeError.
Proof. split; vm_compute; reflexivity. Qed.

(** ** Rows that cannot have children *)

Lemma as_path_path_value (p : list Z) : as_path (path_value p) = Some p.
Proof.
  unfold as_path, path_value.
  induction p as [|i p IH]; [done|].
  rewrite fmap_cons. simpl. simpl in IH. by rewrite IH.
Qed.

(** C5: in every model that keeps to what the docstrings of
    [can_have_children] ("whether or not the row can ever have child rows")
    and [get_row_count] ("how many child rows the row currently has") say,
    a valid row for which [can_have_children] returns false has row
    count 0. *)
Theorem childless_row_has_no_rows
    (St : Type) (line : mro St) (depth : nat)
    (evolves : St -> St -> Prop) (child_rows : St -> list Z -> option nat)
    (s : St) (row : list Z) :
  conforming line depth evolves child_rows ->
  is_Some (child_rows s row) ->
  returns line depth "can_have_children" [path_value row] s (VBool false) ->
  returns line depth "get_row_count" [path_value row] s (VInt 0).
Proof.
  intros [Hcount Hcan] Hvalid Hfalse.
  destruct (Hcan s row Hvalid) as (b & Hb & Hever).
  unfold returns in Hb, Hfalse. rewrite Hfalse in Hb.
  injection Hb as <-.
  destruct Hvalid as [n Hn].
  destruct n as [|k].
  - exact (Hcount s row 0%nat Hn).
  - assert (false = true); [|done].
    apply Hever. exists s, k. split; [apply rtc_refl|exact Hn].
Qed.

Section TableModelFacts.
Variable py_str : value -> M table string.

Lemma table_locate_cases (t : table) (row : list Z) :
  (row = [] /\ TableModel.locate t row = Ok None)
  \/ (exists i, row = [i] /\ 0 <= i < Z.of_nat (length (rows t))
                /\ TableModel.locate t row = Ok (Some (Z.to_nat i)))
  \/ (TableModel.locate t row = Raise IndexError).
Proof.
  destruct row as [|i [|j row]]; simpl; auto.
  destruct (decide _); eauto 6.
Qed.

Lemma table_get_row_count (depth : nat) (t : table) (row : list Z) :
  (call (S depth) (TableModel.line py_str) "get_row_count"
        [path_value row] t).1
  = match TableModel.locate t row with
    | Ok None => Ok (VInt (Z.of_nat (length (rows t))))
    | Ok (Some _) => Ok (VInt 0)
    | Raise e => Raise e
    end.
Proof.
  erewrite call_method by reflexivity.
  unfold TableModel.get_row_count, bind, lift_option, lift_result,
    get_state, ret.
  rewrite as_path_path_value.
  by destruct (TableModel.locate t row) as [[i|]|e].
Qed.

Lemma table_can_have_children (depth : nat) (t : table) (row : list Z) :
  (call (S depth) (TableModel.line py_str) "can_have_children"
        [path_value row] t).1
  = match TableModel.locate t row with
    | Ok None => Ok (VBool true)
    | Ok (Some _) => Ok (VBool false)
    | Raise e => Raise e
    end.
Proof.
  erewrite call_method by reflexivity.
  unfold TableModel.can_have_children, bind, lift_option, lift_result,
    get_state, ret.
  rewrite as_path_path_value.
  by destruct (TableModel.locate t row) as [[i|]|e].
Qed.

(** The table-backed model keeps to the docstrings. *)
Lemma table_model_conforming (depth : nat) :
  conforming (TableModel.line py_str) (S depth)
             TableModel.evolves TableModel.child_rows.
Proof.
  split.
  - intros t row n Hn. unfold returns. rewrite table_get_row_count.
    unfold TableModel.child_rows in Hn.
    destruct (TableModel.locate t row) as [[i|]|e]; [| |done].
    + by injection Hn as <-.
    + by injection Hn as <-.
  - intros t row [n Hn]. unfold returns. rewrite table_can_have_children.
    unfold TableModel.child_rows in Hn.
    destruct (table_locate_cases t row)
      as [[-> Hl]|[(i & -> & Hi & Hl)|Hl]]; rewrite Hl in *; [| |done].
    + exists true. split; [done|]. split; [|done]. intros _.
      exists (Table [] [[]]), 0%nat. split; [|reflexivity].
      by apply rtc_once.
    + exists false. split; [done|]. split; [done|].
      intros (t' & k & _ & Hk). unfold TableModel.child_rows in Hk.
      destruct (table_locate_cases t' [i])
        as [[? _]|[(i' & _ & _ & Hl')|Hl']]; [done| |];
        by rewrite Hl' in Hk.
Qed.

End TableModelFacts.

Lemma childless_row_has_no_rows_witness :
  conforming (TableModel.line scalar_str) 10
             TableModel.evolves TableModel.child_rows
  /\ is_Some (TableModel.child_rows flat_table [1])
  /\ returns (TableModel.line scalar_str) 10 "can_have_children"
             [path_value [1]] flat_table (VBool false)
  /\ returns (TableModel.line scalar_str) 10 "get_row_count"
             [path_value [1]] flat_table (VInt 0).
Proof.
  pose proof (table_model_conforming scalar_str 9) as Hconf.
  assert (Hvalid : is_Some (TableModel.child_rows flat_table [1]))
    by (vm_compute; eauto).
  assert (Hfalse : returns (TableModel.line scalar_str) 10
                     "can_have_children" [path_value [1]] flat_table
                     (VBool false))
    by (vm_compute; reflexivity).
  split; [exact Hconf|]. split; [exact Hvalid|]. split; [exact Hfalse|].
  exact (childless_row_has_no_rows table (TableModel.line scalar_str) 10
           TableModel.evolves TableModel.child_rows flat_table [1]
           Hconf Hvalid Hfalse).
Defined.

(** ** Column counts *)

Lemma ragged_column_counts (depth : nat) (row : list Z) (n : Z) :
  (call (S depth) (TableModel.line scalar_str) "get_column_count"
        [path_value row] ragged_table).1 = Ok (VInt n) ->
  0 <= n <= 2.
Proof.
  erewrite call_method by reflexivity.
  unfold TableModel.get_column_count, bind, lift_option, lift_result,
    get_state, ret.
  rewrite as_path_path_value.
  destruct (table_locate_cases ragged_table row)
    as [[-> Hl]|[(i & -> & Hi & Hl)|Hl]]; rewrite Hl; simpl.
  - intros [= <-]. lia.
  - simpl in Hi.
    assert (Hcases : i = 0 \/ i = 1) by lia.
    destruct Hcases as [-> | ->]; simpl; intros [= <-]; lia.
  - discriminate.
Qed.

(** C6: the total number of columns of the table is the column count of
    the root row, and nothing makes a row's column count equal to it:
    there is a class derived from the data model that overrides all that
    is abstract, and so can be instantiated, whose root row has two
    columns while a valid row below it has one; the counts of its rows
    are non-negative and none exceeds the root's. *)
Theorem column_count_may_differ_from_root :
  exists (subs : mro table) (t : table) (row : list Z),
    let line := subs ++ [AbstractDataModel.cls scalar_str] in
    instantiate line = Ok tt
    /\ total_column_count line 10 t
       = (call 10 line "get_column_count" [path_value root] t).1
    /\ total_column_count line 10 t = Ok (VInt 2)
    /\ is_Some (TableModel.child_rows t row)
    /\ (call 10 line "get_column_count" [path_value row] t).1 = Ok (VInt 1)
    /\ (forall row' n,
          (call 10 line "get_column_count" [path_value row'] t).1
          = Ok (VInt n) ->
          0 <= n <= 2).
Proof.
  exists [TableModel.cls scalar_str], ragged_table, [0].
  split; [vm_compute; reflexivity|].
  split; [reflexivity|].
  split; [vm_compute; reflexivity|].
  split; [vm_compute; eauto|].
  split; [vm_compute; reflexivity|].
  intros row' n. apply ragged_column_counts.
Qed.

Lemma column_count_may_differ_from_root_witness :
  exists (subs : mro table) (t : table) (row : list Z),
    instantiate (subs ++ [AbstractDataModel.cls scalar_str]) = Ok tt
    /\ (call 10 (subs ++ [AbstractDataModel.cls scalar_str])
             "get_column_count" [path_value root] t).1 = Ok (VInt 2)
    /\ (call 10 (subs ++ [AbstractDataModel.cls scalar_str])
             "get_column_count" [path_value row] t).1 = Ok (VInt 1).
Proof.
  destruct column_count_may_differ_from_root
    as (subs & t & row & Hi & Htot & Hroot & _ & Hrow & _).
  exists subs, t, row.
  split; [exact Hi|]. split; [|exact Hrow].
  rewrite <- Htot. exact Hroot.
Defined.

(** ** The index manager *)

Section IndexManagerFacts.
Context {St : Type}.
Variable py_str : value -> M St string.
Variable isinstance : value -> string -> bool.
Variable font_validate : value -> result value.
Variable font_default : value.
Variable subs : mro St.

Local Abbreviation line := (subs ++ [AbstractDataModel.cls py_str]).
Local Abbreviation valid :=
  (holds_instance isinstance "AbstractIndexManager" "index_manager").

Hypothesis subs_unbound :
  Forall (fun c => cls_namespace c !! "index_manager" = None) subs.

Lemma resolve_index_manager :
  resolve line "index_manager"
  = Some (Trait (Instance "AbstractIndexManager")).
Proof. rewrite resolve_unbound by done. reflexivity. Qed.

(** An assignment that goes through keeps the index manager valid. *)
Lemma setattr_keeps_valid name v store store' :
  valid store ->
  setattr isinstance font_validate line name v store = Ok store' ->
  valid store'.
Proof.
  unfold setattr, holds_instance. intros Hvalid.
  destruct (decide (name = "index_manager")) as [->|Hne].
  - rewrite resolve_index_manager. simpl.
    destruct v; simpl;
      try (destruct (isinstance _ _) eqn:Hi; [|discriminate]);
      intros [= <-]; rewrite lookup_insert_eq; auto.
  - destruct (resolve line name) as [[t|a body]|]; try discriminate.
    destruct t; simpl.
    + destruct (match v with VNone => _ | _ => _ end) as [v'|e];
        [|discriminate].
      intros [= <-]. by rewrite lookup_insert_ne.
    + by intros [= <-].
    + destruct (font_validate v) as [v'|e]; [|discriminate].
      intros [= <-]. by rewrite lookup_insert_ne.
Qed.

Lemma init_traits_keeps_valid kwargs store store' :
  valid store ->
  init_traits isinstance font_validate line kwargs store = Ok store' ->
  valid store'.
Proof.
  revert store. induction kwargs as [|[name v] kwargs IH]; simpl.
  - by intros store Hvalid [= <-].
  - intros store Hvalid.
    destruct (setattr _ _ line name v store) as [store1|e] eqn:Hset;
      [|discriminate].
    apply IH. by eapply setattr_keeps_valid.
Qed.

Lemma reachable_valid store :
  reachable isinstance font_validate line store -> valid store.
Proof.
  induction 1 as [kwargs store Hnew|store name v store' _ IH Hset].
  - unfold construct in Hnew.
    destruct (instantiate line); [|discriminate].
    by eapply init_traits_keeps_valid; [|exact Hnew].
  - by eapply setattr_keeps_valid.
Qed.

Lemma getattr_index_manager store :
  getattr font_default line "index_manager" store
  = Ok (default VNone (store !! "index_manager")).
Proof. unfold getattr. by rewrite resolve_index_manager. Qed.

End IndexManagerFacts.

(** C10: [index_manager] is declared [Instance(AbstractIndexManager)] and
    nothing more.  In every class derived from the data model that leaves
    the declaration as it is, whatever state an instance gets into, from
    its construction on and through every assignment, reading
    [index_manager] gives [None] or an instance of [AbstractIndexManager];
    and an instance built without an index manager exists and reads
    [None]. *)
Theorem index_manager_is_none_or_instance
    (St : Type) (py_str : value -> M St string)
    (isinstance : value -> string -> bool)
    (font_validate : value -> result value) (font_default : value)
    (subs : mro St) :
  let line := subs ++ [AbstractDataModel.cls py_str] in
  Forall (fun c => cls_namespace c !! "index_manager" = None) subs ->
  AbstractDataModel.namespace py_str !! "index_manager"
  = Some (Trait (Instance "AbstractIndexManager"))
  /\ (forall store,
        reachable isinstance font_validate line store ->
        exists v,
          getattr font_default line "index_manager" store = Ok v
          /\ (v = VNone \/ isinstance v "AbstractIndexManager" = true))
  /\ (instantiate line = Ok tt ->
      construct isinstance font_validate line [] = Ok ∅
      /\ reachable isinstance font_validate line ∅
      /\ getattr font_default line "index_manager" ∅ = Ok VNone).
Proof.
  intros line Hsubs. split; [reflexivity|]. split.
  - intros store Hreach.
    rewrite (getattr_index_manager py_str font_default subs Hsubs).
    eexists; split; [reflexivity|].
    pose proof (reachable_valid py_str isinstance font_validate subs Hsubs
                  store Hreach) as Hvalid.
    unfold holds_instance in Hvalid.
    destruct (store !! "index_manager"); simpl; auto.
  - intros Hinst.
    assert (Hnew : construct isinstance font_validate line [] = Ok ∅).
    { unfold construct. by rewrite Hinst. }
    split; [exact Hnew|]. split; [by eapply reachable_new|].
    by rewrite (getattr_index_manager py_str font_default subs Hsubs).
Qed.

Lemma index_manager_is_none_or_instance_witness :
  let line := [TableModel.cls scalar_str]
              ++ [AbstractDataModel.cls scalar_str] in
  Forall (fun c : pyclass table => cls_namespace c !! "index_manager" = None)
         [TableModel.cls scalar_str]
  /\ instantiate line = Ok tt
  /\ construct sample_isinstance sample_font_validate line [] = Ok ∅
  /\ getattr sample_font_default line "index_manager" ∅ = Ok VNone.
Proof.
  intros line.
  assert (H : Forall (fun c : pyclass table =>
                        cls_namespace c !! "index_manager" = None)
                     [TableModel.cls scalar_str])
    by (repeat constructor).
  assert (Hi : instantiate line = Ok tt) by (vm_compute; reflexivity).
  split; [exact H|]. split; [exact Hi|].
  destruct (proj2 (proj2 (index_manager_is_none_or_instance table scalar_str
              sample_isinstance sample_font_validate sample_font_default
              [TableModel.cls scalar_str] H)) Hi) as (Hnew & _ & Hget).
  split; [exact Hnew|exact Hget].
Defined.

(** ** The font dialog interface *)

Section FontDialogFacts.
Context {St : Type}.
Variable dialog : mro St.

Lemma font_dialog_own_names :
  dom (IFontDialog.namespace (St := St)) = {[ "font" ]}.
Proof. unfold IFontDialog.namespace. apply dom_singleton_L. Qed.

Lemma font_dialog_no_methods name (m : member St) :
  IFontDialog.namespace !! name = Some m -> is_method m = false.
Proof.
  unfold IFontDialog.namespace.
  intros [_ <-]%lookup_singleton_Some. reflexivity.
Qed.

Lemma font_dialog_inherits name :
  name <> "font" ->
  resolve (IFontDialog.cls :: dialog) name = resolve dialog name.
Proof.
  intros Hne. simpl. unfold IFontDialog.namespace.
  by rewrite lookup_singleton_ne.
Qed.

Lemma font_dialog_resolves_font :
  resolve (IFontDialog.cls :: dialog) "font" = Some (Trait PyfaceFont).
Proof. reflexivity. Qed.

End FontDialogFacts.

(** C8: the font dialog interface derives from the dialog interface and
    declares one attribute of its own, the trait [font], and no operation.
    The font can be read (it starts as the trait's default) and assigned
    (what the trait makes of the assigned value is what is read back);
    every other name means on a font dialog what it means on a dialog. *)
Theorem font_dialog_declares_font_only
    (St : Type) (isinstance : value -> string -> bool)
    (font_validate : value -> result value) (font_default : value)
    (dialog : mro St) :
  let line := IFontDialog.cls :: dialog in
  cls_bases (IFontDialog.cls (St := St)) = ["IDialog"]
  /\ dom (IFontDialog.namespace (St := St)) = {[ "font" ]}
  /\ IFontDialog.namespace (St := St) !! "font" = Some (Trait PyfaceFont)
  /\ (forall name (m : member St),
        IFontDialog.namespace !! name = Some m -> is_method m = false)
  /\ (forall name, name <> "font" -> resolve line name = resolve dialog name)
  /\ (forall store,
        store !! "font" = None ->
        getattr font_default line "font" store = Ok font_default)
  /\ (forall v v' store,
        font_validate v = Ok v' ->
        exists store',
          setattr isinstance font_validate line "font" v store = Ok store'
          /\ getattr font_default line "font" store' = Ok v').
Proof.
  intros line.
  split; [reflexivity|].
  split; [apply font_dialog_own_names|].
  split; [reflexivity|].
  split; [apply font_dialog_no_methods|].
  split; [apply font_dialog_inherits|].
  split.
  - intros store Hnone. unfold getattr, line.
    rewrite font_dialog_resolves_font. by rewrite Hnone.
  - intros v v' store Hv. exists (<[ "font" := v' ]> store).
    unfold setattr, getattr, line. rewrite font_dialog_resolves_font.
    simpl. rewrite Hv. split; [reflexivity|].
    by rewrite lookup_insert_eq.
Qed.

Lemma font_dialog_declares_font_only_witness :
  let line := [IFontDialog.cls; SampleDialog.cls] in
  "open" <> "font"
  /\ resolve line "open" = Some (Method false SampleDialog.open)
  /\ sample_font_validate (VObj "Font" 3) = Ok (VObj "Font" 3)
  /\ exists store',
       setattr sample_isinstance sample_font_validate line "font"
               (VObj "Font" 3) ∅ = Ok store'
       /\ getattr sample_font_default line "font" store'
          = Ok (VObj "Font" 3).
Proof.
  intros line.
  pose proof (font_dialog_declares_font_only unit sample_isinstance
                sample_font_validate sample_font_default [SampleDialog.cls])
    as (_ & _ & _ & _ & Hinh & _ & Hset).
  assert (Hne : "open" <> "font") by discriminate.
  assert (Hv : sample_font_validate (VObj "Font" 3) = Ok (VObj "Font" 3))
    by reflexivity.
  split; [exact Hne|].
  split; [unfold line; rewrite (Hinh "open" Hne); reflexivity|].
  split; [exact Hv|].
  exact (Hset (VObj "Font" 3) (VObj "Font" 3) ∅ Hv).
Defined.

(** ** Writing a value and reading it back *)

(** C4: in every model that keeps to what the docstrings of [get_value]
    (it returns the value the row and column stand for) and [set_value]
    (it returns whether the value was set) say, once
    [set_value(row, column, v)] has returned true, [get_value(row, column)]
    in the state the write left behind returns a value that agrees with
    [v], in the sense of agreement the model's adapter fixes. *)
Theorem get_value_after_set_value
    (St : Type) (line : mro St) (depth : nat)
    (cell : St -> list Z -> list Z -> option value)
    (consistent : value -> value -> Prop)
    (s s' : St) (row column : list Z) (v : value) :
  value_conforming line depth cell consistent ->
  call depth line "set_value" [path_value row; path_value column; v] s
  = (Ok (VBool true), s') ->
  exists w,
    (call depth line "get_value" [path_value row; path_value column] s').1
    = Ok w
    /\ consistent w v.
Proof.
  intros [Hget Hset] Hwrite.
  destruct (Hset s row column v s' Hwrite) as (w & Hcell & Hagree).
  exists w. split; [|exact Hagree].
  exact (Hget s' row column w Hcell).
Qed.

Section TableValueFacts.
Variable py_str : value -> M table string.

Lemma column_index_Ok (width : nat) (column : list Z) (j : nat) :
  TableModel.column_index width column = Ok j -> (j < width)%nat.
Proof.
  destruct column as [|j' [|? ?]]; simpl; try discriminate.
  destruct (decide _) as [Hj|]; [|discriminate].
  intros [= <-]. lia.
Qed.

Lemma table_get_value (depth : nat) (t : table) (row column : list Z) :
  (call (S depth) (TableModel.line py_str) "get_value"
        [path_value row; path_value column] t).1
  = match TableModel.locate t row with
    | Ok loc =>
        match TableModel.column_index
                (length (TableModel.cells t loc)) column with
        | Ok j =>
            match TableModel.cells t loc !! j with
            | Some w => Ok w
            | None => Raise IndexError
            end
        | Raise e => Raise e
        end
    | Raise e => Raise e
    end.
Proof.
  erewrite call_method by reflexivity.
  unfold TableModel.get_value, bind, lift_option, lift_result,
    get_state, ret, raise.
  rewrite !as_path_path_value.
  destruct (TableModel.locate t row) as [loc|e]; [|done].
  destruct (TableModel.column_index _ column) as [j|e]; [|done].
  by destruct (TableModel.cells t loc !! j).
Qed.

Lemma table_set_value (depth : nat) (t : table) (row column : list Z)
    (v : value) :
  call (S depth) (TableModel.line py_str) "set_value"
       [path_value row; path_value column; v] t
  = match TableModel.locate t row with
    | Ok loc =>
        match TableModel.column_index
                (length (TableModel.cells t loc)) column with
        | Ok j => (Ok (VBool true), TableModel.write t loc j v)
        | Raise e => (Raise e, t)
        end
    | Raise e => (Raise e, t)
    end.
Proof.
  erewrite call_method by reflexivity.
  unfold TableModel.set_value, bind, lift_option, lift_result,
    get_state, put_state, ret, raise.
  rewrite !as_path_path_value.
  destruct (TableModel.locate t row) as [loc|e]; [|done].
  by destruct (TableModel.column_index _ column) as [j|e].
Qed.

(** A write leaves the written value in the cell it names. *)
Lemma table_cell_write (t : table) (row column : list Z)
    (loc : option nat) (j : nat) (v : value) :
  TableModel.locate t row = Ok loc ->
  TableModel.column_index (length (TableModel.cells t loc)) column = Ok j ->
  TableModel.cell (TableModel.write t loc j v) row column = Some v.
Proof.
  intros Hloc Hcol.
  pose proof (column_index_Ok _ _ _ Hcol) as Hj.
  unfold TableModel.cell.
  destruct (table_locate_cases t row)
    as [[-> Hl]|[(i & -> & Hi & Hl)|Hl]]; rewrite Hl in Hloc;
    [injection Hloc as <-|injection Hloc as <-|discriminate].
  - simpl in *. rewrite length_insert, Hcol.
    by apply list_lookup_insert_eq.
  - assert (Hrow : (Z.to_nat i < length (rows t))%nat) by lia.
    simpl. rewrite length_insert.
    destruct (decide _) as [_|Hout]; [|lia].
    simpl. rewrite list_lookup_insert_eq by done. simpl.
    simpl in Hcol, Hj. rewrite length_insert, Hcol.
    by apply list_lookup_insert_eq.
Qed.

(** The table-backed model keeps to the docstrings of [get_value] and
    [set_value], with equality as agreement. *)
Lemma table_model_value_conforming (depth : nat) :
  value_conforming (TableModel.line py_str) (S depth) TableModel.cell eq.
Proof.
  split.
  - intros t row column w Hcell. unfold returns.
    rewrite table_get_value. unfold TableModel.cell in Hcell.
    destruct (TableModel.locate t row) as [loc|e]; [|done].
    destruct (TableModel.column_index _ column) as [j|e]; [|done].
    by rewrite Hcell.
  - intros t row column v t'. rewrite table_set_value.
    destruct (TableModel.locate t row) as [loc|e] eqn:Hloc; [|done].
    destruct (TableModel.column_index _ column) as [j|e] eqn:Hcol; [|done].
    intros [= <-]. exists v. split; [|done].
    by eapply table_cell_write.
Qed.

End TableValueFacts.

Lemma get_value_after_set_value_witness :
  let line := TableModel.line scalar_str in
  let written :=
    Table [VStr "name"; VStr "age"]
          [ [VStr "ann"; VInt 30]; [VStr "bob"; VInt 26];
            [VStr "cy"; VInt 41] ] in
  value_conforming line 10 TableModel.cell eq
  /\ call 10 line "set_value" [path_value [1]; path_value [1]; VInt 26]
          flat_table
     = (Ok (VBool true), written)
  /\ exists w,
       (call 10 line "get_value" [path_value [1]; path_value [1]] written).1
       = Ok w
       /\ w = VInt 26.
Proof.
  intros line written.
  pose proof (table_model_value_conforming scalar_str 9) as Hconf.
  assert (Hwrite : call 10 line "set_value"
                     [path_value [1]; path_value [1]; VInt 26] flat_table
                   = (Ok (VBool true), written))
    by (vm_compute; reflexivity).
  split; [exact Hconf|]. split; [exact Hwrite|].
  exact (get_value_after_set_value table line 10 TableModel.cell eq
           flat_table written [1] [1] (VInt 26) Hconf Hwrite).
Defined.

(** * Further properties of the two modules *)

(** ** What the class body binds *)

Section ClassBodyFacts.
Context {St : Type}.
Variable py_str : value -> M St string.






End ClassBodyFacts.



(** ** Which classes can be instantiated *)

Section InstantiationFacts.
Context {St : Type}.
Variable py_str : value -> M St string.
Variable subs : mro St.

Local Abbreviation base := (AbstractDataModel.cls py_str).


End InstantiationFacts.





(** ** The stubs *)

Section StubFacts.
Context {St : Type}.
Variable py_str : value -> M St string.
Variable subs : mro St.

Local Abbreviation line := (subs ++ [AbstractDataModel.cls py_str]).

Lemma call_inherited depth name a body args s :
  Forall (fun c => cls_namespace c !! name = None) subs ->
  AbstractDataModel.namespace py_str !! name = Some (Method a body) ->
  call (S depth) line name args s = body (call depth line) args s.
Proof.
  intros Hsubs Hbase. apply call_method with (a := a).
  rewrite resolve_unbound by done. simpl. by rewrite Hbase.
Qed.


End StubFacts.



(** X5: the default [get_text] over the default [get_value].  On an
    instance of a class derived from the data model that leaves both
    alone, [get_text(row, column)] raises the [NotImplementedError] of
    [get_value]; [str] is not reached, and the instance stays as it was. *)
Theorem default_get_text_over_stub_raises
    (St : Type) (py_str : value -> M St string) (subs : mro St)
    (depth : nat) (row column : value) (s : St) :
  Forall (fun c => cls_namespace c !! "get_text" = None) subs ->
  Forall (fun c => cls_namespace c !! "get_value" = None) subs ->
  call (S (S depth)) (subs ++ [AbstractDataModel.cls py_str]) "get_text"
       [row; column] s
  = (Raise NotImplementedError, s).
Proof.
  intros Htext Hvalue.
  erewrite call_inherited by (done || reflexivity).
  unfold AbstractDataModel.get_text, bind.
  erewrite call_inherited by (done || reflexivity).
  reflexivity.
Qed.

Lemma default_get_text_over_stub_raises_witness :
  Forall (fun c : pyclass unit => cls_namespace c !! "get_text" = None)
         [Outline.cls]
  /\ Forall (fun c : pyclass unit => cls_namespace c !! "get_value" = None)
            [Outline.cls]
  /\ call 2 ([Outline.cls] ++ [AbstractDataModel.cls scalar_str]) "get_text"
          [path_value [0]; path_value [0]] tt
     = (Raise NotImplementedError, tt).
Proof.
  assert (Ht : Forall (fun c : pyclass unit =>
                         cls_namespace c !! "get_text" = None) [Outline.cls])
    by (repeat constructor).
  assert (Hv : Forall (fun c : pyclass unit =>
                         cls_namespace c !! "get_value" = None) [Outline.cls])
    by (repeat constructor).
  split; [exact Ht|]. split; [exact Hv|].
  exact (default_get_text_over_stub_raises unit scalar_str [Outline.cls] 0
           (path_value [0]) (path_value [0]) tt Ht Hv).
Defined.

(** ** Assigning traits *)

Section AssignmentFacts.
Context {St : Type}.
Variable py_str : value -> M St string.
Variable isinstance : value -> string -> bool.
Variable font_validate : value -> result value.
Variable font_default : value.
Variable subs : mro St.

Local Abbreviation line := (subs ++ [AbstractDataModel.cls py_str]).



Hypothesis subs_methods :
  Forall (fun c => forall name m,
            cls_namespace c !! name = Some m -> is_method m = true) subs.





End AssignmentFacts.

(** X6: assigning the index manager.  On an instance of a class derived
    from the data model that leaves the declaration alone, assigning
    [None] or an instance of [AbstractIndexManager] goes through, is what
    [index_manager] reads as afterwards, and changes nothing kept under
    another name; assigning anything else raises [TraitError]. *)
Theorem index_manager_assignment
    (St : Type) (py_str : value -> M St string)
    (isinstance : value -> string -> bool)
    (font_validate : value -> result value) (font_default : value)
    (subs : mro St) (v : value) (store : gmap string value) :
  let line := subs ++ [AbstractDataModel.cls py_str] in
  Forall (fun c => cls_namespace c !! "index_manager" = None) subs ->
  (v = VNone \/ isinstance v "AbstractIndexManager" = true ->
   exists store',
     setattr isinstance font_validate line "index_manager" v store
     = Ok store'
     /\ getattr font_default line "index_manager" store' = Ok v
     /\ forall name, name <> "index_manager" ->
                     store' !! name = store !! name)
  /\ (v <> VNone -> isinstance v "AbstractIndexManager" = false ->
      setattr isinstance font_validate line "index_manager" v store
      = Raise TraitError).
Proof.
  intros line Hsubs.
  pose proof (resolve_index_manager py_str subs Hsubs) as Hr.
  split.
  - intros Hv. exists (<[ "index_manager" := v ]> store).
    split; [|split].
    + unfold setattr, line. rewrite Hr. simpl.
      destruct Hv as [->|Hv]; [done|].
      rewrite Hv. by destruct v.
    + rewrite (getattr_index_manager py_str font_default subs Hsubs).
      by rewrite lookup_insert_eq.
    + intros name Hne. by rewrite lookup_insert_ne.
  - intros Hnone Hv. unfold setattr, line. rewrite Hr. simpl.
    rewrite Hv. by destruct v.
Qed.

Lemma index_manager_assignment_witness :
  let line := [TableModel.cls scalar_str]
              ++ [AbstractDataModel.cls scalar_str] in
  Forall (fun c : pyclass table => cls_namespace c !! "index_manager" = None)
         [TableModel.cls scalar_str]
  /\ sample_isinstance (VObj "IntIndexManager" 1) "AbstractIndexManager"
     = true
  /\ (exists store',
        setattr sample_isinstance sample_font_validate line "index_manager"
                (VObj "IntIndexManager" 1) ∅ = Ok store'
        /\ getattr sample_font_default line "index_manager" store'
           = Ok (VObj "IntIndexManager" 1))
  /\ VInt 3 <> VNone
  /\ sample_isinstance (VInt 3) "AbstractIndexManager" = false
  /\ setattr sample_isinstance sample_font_validate line "index_manager"
             (VInt 3) ∅ = Raise TraitError.
Proof.
  intros line.
  assert (H : Forall (fun c : pyclass table =>
                        cls_namespace c !! "index_manager" = None)
                     [TableModel.cls scalar_str])
    by (repeat constructor).
  assert (Hi : sample_isinstance (VObj "IntIndexManager" 1)
                 "AbstractIndexManager" = true) by reflexivity.
  assert (Hn : VInt 3 <> VNone) by discriminate.
  assert (Hf : sample_isinstance (VInt 3) "AbstractIndexManager" = false)
    by reflexivity.
  split; [exact H|]. split; [exact Hi|]. split.
  - destruct (proj1 (index_manager_assignment table scalar_str
                sample_isinstance sample_font_validate sample_font_default
                [TableModel.cls scalar_str] (VObj "IntIndexManager" 1) ∅ H)
                (or_intror Hi)) as (store' & Hset & Hget & _).
    exists store'. split; [exact Hset|exact Hget].
  - split; [exact Hn|]. split; [exact Hf|].
    exact (proj2 (index_manager_assignment table scalar_str
             sample_isinstance sample_font_validate sample_font_default
             [TableModel.cls scalar_str] (VInt 3) ∅ H) Hn Hf).
Defined.




(** ** The functions inside the string literal, once more *)

(** X8: the [get_cell_editor] written inside the string literal returns
    [self.get_column_type(column)], and [get_column_type] is defined
    neither by the class nor inside the literal.  Run on an instance of a
    class derived from the data model that does not define
    [get_column_type] itself, the function raises [AttributeError] for
    every row and column and leaves the instance as it was. *)
Theorem quoted_get_cell_editor_needs_get_column_type
    (St : Type) (py_str : value -> M St string) :
  AbstractDataModel.namespace py_str !! "get_column_type" = None
  /\ (forall m : member St,
        ("get_column_type", m) ∉ AbstractDataModel.quoted)
  /\ (forall (subs : mro St) depth row column s,
        Forall (fun c => cls_namespace c !! "get_column_type" = None) subs ->
        AbstractDataModel.quoted_get_cell_editor
          (call (S depth) (subs ++ [AbstractDataModel.cls py_str]))
          [row; column] s
        = (Raise AttributeError, s)).
Proof.
  split; [reflexivity|]. split.
  - intros m H. unfold AbstractDataModel.quoted in H.
    repeat (apply elem_of_cons in H as [H|H]; [discriminate H|]).
    by apply elem_of_nil in H.
  - intros subs depth row column s Hsubs.
    unfold AbstractDataModel.quoted_get_cell_editor.
    by apply call_outside_class.
Qed.

Lemma quoted_get_cell_editor_needs_get_column_type_witness :
  Forall (fun c : pyclass table =>
            cls_namespace c !! "get_column_type" = None)
         [TableModel.cls scalar_str]
  /\ AbstractDataModel.quoted_get_cell_editor
       (call 10 ([TableModel.cls scalar_str]
                 ++ [AbstractDataModel.cls scalar_str]))
       [path_value [0]; path_value [1]] flat_table
     = (Raise AttributeError, flat_table).
Proof.
  assert (H : Forall (fun c : pyclass table =>
                        cls_namespace c !! "get_column_type" = None)
                     [TableModel.cls scalar_str])
    by (repeat constructor).
  split; [exact H|].
  exact (proj2 (proj2 (quoted_get_cell_editor_needs_get_column_type
                         table scalar_str))
           [TableModel.cls scalar_str] 9%nat _ _ flat_table H).
Defined.
